(** * RC aircraft control-surface servo torque estimator

    A shallow embedding of [servo_torque_estimator.py] and the proofs of
    its specification.

    The script works on Python [float]s, which are IEEE 754 binary64
    numbers, reads lines with [input], converts them with [float] and
    writes with [print].  The embedding keeps all of that:

    - numbers are [spec_float]s at precision 53 and maximal exponent 1024,
      with the correctly rounded operations of the standard library's
      [SpecFloat] (round to nearest, ties to even);
    - the interpreter's services ([float] on a string, [input], [print],
      [**], [/], exceptions) are modelled in [Module Py];
    - the functions of the script follow, under their own names. *)

From Stdlib Require Import ZArith QArith Qabs List String Ascii Bool Lia.
From Stdlib Require Import SpecFloat.
Import ListNotations.

Local Open Scope Z_scope.

(** ** Binary64 arithmetic *)

Module Binary64.

Definition prec : Z := 53.
Definition emax : Z := 1024.

Definition float : Type := spec_float.

Definition add : float -> float -> float := SFadd prec emax.
Definition mul : float -> float -> float := SFmul prec emax.
Definition div : float -> float -> float := SFdiv prec emax.
Definition abs : float -> float := SFabs.
Definition neg : float -> float := SFopp.

(** The comparisons of IEEE 754: every comparison with a NaN is false. *)
Definition eqb : float -> float -> bool := SFeqb.
Definition ltb : float -> float -> bool := SFltb.
Definition leb : float -> float -> bool := SFleb.

Definition is_nan (x : float) : bool :=
  match x with S754_nan => true | _ => false end.

Definition is_zero (x : float) : bool :=
  match x with S754_zero _ => true | _ => false end.

Definition is_finite (x : float) : bool :=
  match x with S754_zero _ | S754_finite _ _ _ => true | _ => false end.

Definition is_infinite (x : float) : bool :=
  match x with S754_infinity _ => true | _ => false end.

Definition zero : float := S754_zero false.

(** The binary64 nearest to the rational [n / d], for [n >= 0] and
    [d > 0], with sign [s].  [SFdiv] works on the mantissas as integers
    and rounds the exact quotient once, whatever their size. *)
Definition of_ratio (s : bool) (n d : Z) : float :=
  match n, d with
  | Z0, _ => S754_zero s
  | Zpos pn, Zpos pd => div (S754_finite s pn 0) (S754_finite false pd 0)
  | _, _ => S754_nan
  end.

(** The binary64 nearest to [(-1)^s * m * 10^e]: the value of a decimal
    numeral with digits [m] and decimal exponent [e]. *)
Definition of_decimal (s : bool) (m e : Z) : float :=
  if 0 <=? e then of_ratio s (m * 10 ^ e) 1
  else of_ratio s m (10 ^ (- e)).

(** The binary64 nearest to the integer [z]: how an integer operand
    is converted before it meets a float. *)
Definition of_Z (z : Z) : float := binary_normalize prec emax z 0 false.

(** The exact value of a finite float, as a rational. *)
Definition to_Q (x : float) : option Q :=
  match x with
  | S754_zero _ => Some 0%Q
  | S754_finite s m e =>
      let v := if 0 <=? e then inject_Z (Zpos m * 2 ^ e)
               else Qmake (Zpos m) (Z.to_pos (2 ^ (- e))) in
      Some (if s then Qopp v else v)
  | _ => None
  end.

(** [within x c tol]: [x] is a finite number and [|x - c| <= tol]. *)
Definition within (x : float) (c tol : Q) : bool :=
  match to_Q x with
  | Some v => Qle_bool (Qabs (v - c)) tol
  | None => false
  end.

End Binary64.

Import Binary64.

(** ** The services of the Python interpreter that the script uses *)

Module Py.

(** *** Exceptions *)

Inductive exn : Type :=
| EOFError
| ValueError
| OverflowError
| ZeroDivisionError.

Definition exn_eqb (a b : exn) : bool :=
  match a, b with
  | EOFError, EOFError
  | ValueError, ValueError
  | OverflowError, OverflowError
  | ZeroDivisionError, ZeroDivisionError => true
  | _, _ => false
  end.

Inductive outcome (A : Type) : Type :=
| Return (a : A)
| Raise (e : exn).

Arguments Return {A} a.
Arguments Raise {A} e.

(** *** [float(s)] for a string [s]

    The grammar of CPython's [float]: blanks stripped at both ends, an
    underscore allowed only between two digits, an optional sign, then
    [inf], [infinity] or [nan] in any case, or a decimal numeral with an
    optional fraction and an optional exponent.  The whole string has
    to match.  The value is the binary64 nearest to the numeral; one
    too large gives an infinity, not an error.  Strings are byte
    strings read as ASCII: the Unicode blanks and digits outside ASCII
    that CPython also takes are not modelled. *)

Definition is_space (c : ascii) : bool :=
  existsb (Ascii.eqb c) [" "; "009"; "010"; "011"; "012"; "013"]%char.

Definition digit_of (c : ascii) : option Z :=
  let n := Z.of_N (N_of_ascii c) in
  if (48 <=? n) && (n <=? 57) then Some (n - 48) else None.

Definition is_digit (c : ascii) : bool :=
  match digit_of c with Some _ => true | None => false end.

Definition lower (c : ascii) : ascii :=
  let n := N_of_ascii c in
  if (65 <=? n)%N && (n <=? 90)%N then ascii_of_N (n + 32) else c.

Fixpoint lstrip (s : list ascii) : list ascii :=
  match s with
  | c :: r => if is_space c then lstrip r else s
  | [] => []
  end.

Definition strip (s : list ascii) : list ascii :=
  rev (lstrip (rev (lstrip s))).

(** Removes the underscores; [None] when one of them does not stand
    between two digits.  [prev] is the character just before [s]. *)
Fixpoint drop_underscores (prev : ascii) (s : list ascii)
  : option (list ascii) :=
  match s with
  | [] => if Ascii.eqb prev "_"%char then None else Some []
  | c :: r =>
      if Ascii.eqb c "_"%char then
        if is_digit prev then drop_underscores c r else None
      else if Ascii.eqb prev "_"%char && negb (is_digit c) then None
      else option_map (cons c) (drop_underscores c r)
  end.

Definition split_sign (s : list ascii) : bool * list ascii :=
  match s with
  | "-"%char :: r => (true, r)
  | "+"%char :: r => (false, r)
  | _ => (false, s)
  end.

(** Reads the digits at the head of [s] after the digits whose value
    is [acc]; returns the value, the number of digits read and what
    follows them. *)
Fixpoint take_digits (acc n : Z) (s : list ascii) : Z * Z * list ascii :=
  match s with
  | c :: r =>
      match digit_of c with
      | Some d => take_digits (10 * acc + d) (n + 1) r
      | None => (acc, n, s)
      end
  | [] => (acc, n, [])
  end.

Definition parse_exponent (s : list ascii) : option Z :=
  match s with
  | [] => Some 0
  | c :: r =>
      if Ascii.eqb (lower c) "e"%char then
        let (sg, r1) := split_sign r in
        match take_digits 0 0 r1 with
        | (v, n, []) => if 0 <? n then Some (if sg then - v else v) else None
        | _ => None
        end
      else None
  end.

Definition parse_decimal (sg : bool) (s : list ascii) : option float :=
  let '(ip, ni, r1) := take_digits 0 0 s in
  let '(m, nf, r2) :=
    match r1 with
    | "."%char :: r => take_digits ip 0 r
    | _ => (ip, 0, r1)
    end in
  if 0 <? ni + nf then
    match parse_exponent r2 with
    | Some e => Some (of_decimal sg m (e - nf))
    | None => None
    end
  else None.

Definition parse_special (sg : bool) (s : list ascii) : option float :=
  let l := string_of_list_ascii (map lower s) in
  if String.eqb l "inf" || String.eqb l "infinity" then Some (S754_infinity sg)
  else if String.eqb l "nan" then Some S754_nan
  else None.

Definition float_of_string (s : string) : option float :=
  match drop_underscores "000"%char (strip (list_ascii_of_string s)) with
  | None => None
  | Some t =>
      let (sg, r) := split_sign t in
      match parse_special sg r with
      | Some x => Some x
      | None => parse_decimal sg r
      end
  end.

(** A float literal of the source text; the compiler reads it as
    [float] reads a string. *)
Definition float_literal (s : string) : float :=
  match float_of_string s with
  | Some x => x
  | None => S754_nan
  end.

(** *** Arithmetic that can raise

    [+] and [*] on floats never raise: a result too large is an
    infinity.  [/] raises on a zero divisor.  [x ** 2] goes through the
    C library's [pow]; it raises [OverflowError] when a finite [x] has
    an infinite square.  [pow] is taken to round the exact square
    correctly, as the multiplication does. *)

Definition truediv (x y : float) : outcome float :=
  if is_zero y then Raise ZeroDivisionError else Return (div x y).

Definition pow2 (x : float) : outcome float :=
  let r := mul x x in
  if is_finite x && is_infinite r then Raise OverflowError else Return r.

(** *** Text written by the script

    An f-string is kept as its fragments: literal text, an interpolated
    string, or an interpolated float with its format ([{x}] prints the
    [repr] of [x], [{x:.2f}] two decimals).  The float itself is kept,
    not its decimal rendering. *)

Inductive format : Type :=
| Repr
| Fixed (decimals : nat).

Inductive fragment : Type :=
| Lit (s : string)
| Str (s : string)
| Num (f : format) (x : float).

Definition text : Type := list fragment.

(** What reaches standard output: the prompt of an [input] call (no
    newline after it) or the line of a [print] call. *)
Inductive event : Type :=
| Prompted (t : text)
| Printed (t : text).

(** *** Computations that read lines and write text

    A computation starts from the lines still unread on standard input
    and gives an outcome, the lines left and the events it emitted.
    Both are kept when it raises. *)

Record run (A : Type) : Type := mkRun {
  result : outcome A;
  unread : list string;
  emitted : list event
}.

Arguments mkRun {A} result unread emitted.
Arguments result {A} r.
Arguments unread {A} r.
Arguments emitted {A} r.

Definition io (A : Type) : Type := list string -> run A.

Definition ret {A} (a : A) : io A :=
  fun stdin => mkRun (Return a) stdin [].

Definition lift {A} (o : outcome A) : io A :=
  fun stdin => mkRun o stdin [].

(** [r], once the events [evs] have been emitted before it. *)
Definition after {A} (evs : list event) (r : run A) : run A :=
  mkRun (result r) (unread r) (evs ++ emitted r).

Definition bind {A B} (m : io A) (k : A -> io B) : io B :=
  fun stdin =>
    let r := m stdin in
    match result r with
    | Return a => after (emitted r) (k a (unread r))
    | Raise e => mkRun (Raise e) (unread r) (emitted r)
    end.

(** [try: body except e: handler] *)
Definition try_except {A} (body : io A) (e : exn) (handler : io A) : io A :=
  fun stdin =>
    let r := body stdin in
    match result r with
    | Return _ => r
    | Raise e' =>
        if exn_eqb e' e then after (emitted r) (handler (unread r)) else r
    end.

(** [input(prompt)]: writes the prompt, then takes the next line;
    [EOFError] when there is none. *)
Definition input (prompt : text) : io string :=
  fun stdin =>
    match stdin with
    | [] => mkRun (Raise EOFError) [] [Prompted prompt]
    | line :: rest => mkRun (Return line) rest [Prompted prompt]
    end.

Definition print (t : text) : io unit :=
  fun stdin => mkRun (Return tt) stdin [Printed t].

(** [for x in xs: acc.append(body(x))] *)
Fixpoint for_each {A B} (xs : list A) (body : A -> io B) : io (list B) :=
  match xs with
  | [] => ret []
  | x :: rest =>
      bind (body x) (fun y =>
      bind (for_each rest body) (fun ys => ret (y :: ys)))
  end.

(** [for x in xs: body(x)] *)
Fixpoint for_each_ {A} (xs : list A) (body : A -> io unit) : io unit :=
  match xs with
  | [] => ret tt
  | x :: rest => bind (body x) (fun _ => for_each_ rest body)
  end.

(** *** The callable given as [input_type]

    [input_type] is applied to the default (a float) and to the line
    read (a string). *)
Class InputType (T : Type) : Type := {
  of_float : float -> outcome T;
  of_str : string -> outcome T
}.

(** [float], the default of the parameter and the only callable the
    script passes. *)
#[export] Instance float_type : InputType float := {|
  of_float := fun x => Return x;
  of_str := fun s =>
    match float_of_string s with
    | Some x => Return x
    | None => Raise ValueError
    end
|}.

End Py.

Import Py.

Declare Scope io_scope.
Delimit Scope io_scope with io.
Notation "x <- m ;; k" := (bind m (fun x => k))
  (at level 61, m at next level, right associativity) : io_scope.
Notation "m ;; k" := (bind m (fun _ => k))
  (at level 61, right associativity) : io_scope.

Local Open Scope string_scope.

Definition nl : string := String (ascii_of_nat 10) "".

(** ** The script *)

Local Open Scope io_scope.

(** [NM_TO_KGCM = 10.1972] *)
Definition NM_TO_KGCM : float := Eval vm_compute in float_literal "10.1972".

(** The other float literals of the source text. *)
Definition lit_2_0 : float := Eval vm_compute in float_literal "2.0".
Definition lit_0_5 : float := Eval vm_compute in float_literal "0.5".
Definition lit_1_225 : float := Eval vm_compute in float_literal "1.225".
Definition lit_18_0 : float := Eval vm_compute in float_literal "18.0".

(** [get_user_input(prompt_text, default_value, input_type=float)] *)
Definition get_user_input {T : Type} {input_type : InputType T}
    (prompt_text : string) (default_value : float) : io T :=
  try_except
    (user_value <- input [Str prompt_text; Lit " [e.g., ";
                          Num Repr default_value; Lit "]: "] ;;
     if String.eqb user_value "" then lift (of_float default_value)
     else lift (of_str user_value))
    ValueError
    (print [Lit "Invalid input. Using default value: ";
            Num Repr default_value] ;;
     lift (of_float default_value)).

Definition calculate_trapezoid_area (root_chord tip_chord span : float)
  : outcome float :=
  truediv (mul (add root_chord tip_chord) span) lit_2_0.

Definition calculate_mean_aerodynamic_chord (root_chord tip_chord : float)
  : outcome float :=
  truediv (add root_chord tip_chord) lit_2_0.

Definition calculate_hinge_torque
    (dynamic_pressure surface_area mean_chord hinge_coeff : float)
  : float * float :=
  let torque_nm :=
    mul (mul (mul dynamic_pressure surface_area) mean_chord) (abs hinge_coeff) in
  let torque_kg_cm := mul torque_nm NM_TO_KGCM in
  (torque_nm, torque_kg_cm).

(** The value of one entry of [surface_defaults]: a dictionary with the
    keys [ch], [span], [root_chord], [tip_chord] and [note]. *)
Module Defaults.
Record t : Type := mk {
  ch : float;
  span : float;
  root_chord : float;
  tip_chord : float;
  note : string
}.
End Defaults.

(** The dictionary that [process_surface] returns. *)
Module Result.
Record t : Type := mk {
  name : string;
  ch : float;
  torque_nm : float;
  torque_kgcm : float
}.
End Result.

Definition process_surface (name : string) (defaults : Defaults.t)
    (dynamic_pressure : float) : io Result.t :=
  print [Lit (nl ++ "--- "); Str name; Lit " Parameters ";
         Str (Defaults.note defaults); Lit " ---"] ;;
  hinge_coeff <- get_user_input (name ++ " Hinge Moment Coefficient (Ch)")
                   (Defaults.ch defaults) ;;
  span <- get_user_input (name ++ " span in meters")
            (Defaults.span defaults) ;;
  root_chord <- get_user_input (name ++ " root chord in meters")
                  (Defaults.root_chord defaults) ;;
  tip_chord <- get_user_input (name ++ " tip chord in meters")
                 (Defaults.tip_chord defaults) ;;
  area <- lift (calculate_trapezoid_area root_chord tip_chord span) ;;
  mean_chord <- lift (calculate_mean_aerodynamic_chord root_chord tip_chord) ;;
  let '(torque_nm, torque_kgcm) :=
    calculate_hinge_torque dynamic_pressure area mean_chord hinge_coeff in
  ret (Result.mk name hinge_coeff torque_nm torque_kgcm).

(** [surface_defaults]; a dictionary is iterated in the order of
    insertion, so it is kept as the list of its items. *)
Definition surface_defaults : list (string * Defaults.t) :=
  Eval vm_compute in
  [ ("Aileron",
     Defaults.mk (neg (float_literal "0.15")) (float_literal "0.924")
       (float_literal "0.110") (float_literal "0.050") "(Single Aileron)");
    ("Elevator",
     Defaults.mk (neg (float_literal "0.10")) (float_literal "0.318")
       (float_literal "0.225") (float_literal "0.225")
       "(One Half of the Elevator)");
    ("Rudder",
     Defaults.mk (neg (float_literal "0.10")) (float_literal "0.308")
       (float_literal "0.200") (float_literal "0.150") "") ].

(** The three lines printed for one result. *)
Definition display_result (res : Result.t) : io unit :=
  print [Lit (nl ++ "For the "); Str (Result.name res); Lit " (using Ch = ";
         Num Repr (Result.ch res); Lit "):"] ;;
  print [Lit "  - Required Torque: "; Num (Fixed 4) (Result.torque_nm res);
         Lit " N.m"] ;;
  print [Lit "  - Required Torque: "; Num (Fixed 2) (Result.torque_kgcm res);
         Lit " kg-cm"].

(** [run_servo_torque_estimation()].  The Python function returns
    nothing; the embedding returns its local list [results], so that
    statements can speak about it. *)
Definition run_servo_torque_estimation : io (list Result.t) :=
  print [Lit "--- RC Servo Torque Estimator ---"] ;;
  print [Lit "Enter the flight conditions and aircraft parameters in the specified units."] ;;
  print [Lit (nl ++ "--- Flight Conditions ---")] ;;
  air_density <- get_user_input "Air density (rho) in kg/m^3" lit_1_225 ;;
  velocity <- get_user_input "Aircraft velocity (V) in m/s" lit_18_0 ;;
  squared <- lift (pow2 velocity) ;;
  let dynamic_pressure := mul (mul lit_0_5 air_density) squared in
  print [Lit (nl ++ "Calculated Dynamic Pressure (q): ");
         Num (Fixed 2) dynamic_pressure; Lit " N/m^2"] ;;
  results <- for_each surface_defaults
               (fun item => process_surface (fst item) (snd item)
                              dynamic_pressure) ;;
  print [Lit (nl ++ "--- ESTIMATED SERVO TORQUE REQUIREMENTS ---")] ;;
  for_each_ results display_result ;;
  print [Lit (nl ++ "Disclaimer: This is a theoretical estimation. Always choose a servo with a safety margin (e.g., 1.5x to 2x the estimated torque).")] ;;
  ret results.

(** ** What the specification says, in its own words *)

(** [trapezoid_area(r, t, s) = (r + t) * s / 2] *)
Definition trapezoid_area_formula (r t s : float) : float :=
  div (mul (add r t) s) (of_Z 2).

(** [mean_aerodynamic_chord(r, t) = (r + t) / 2] *)
Definition mean_aerodynamic_chord_formula (r t : float) : float :=
  div (add r t) (of_Z 2).

(** [x >= 0], as Python compares floats. *)
Definition non_negative (x : float) : Prop := leb zero x = true.

(** The float that [get_user_input] hands back once it has read [line]:
    the default for an empty line and for one that [float] refuses. *)
Definition entered (line : string) (default_value : float) : float :=
  if String.eqb line "" then default_value
  else match float_of_string line with
       | Some x => x
       | None => default_value
       end.

(** [x] is a NaN, a zero of either sign, or has the sign bit clear:
    the floats that are not below zero. *)
Definition not_negative (x : float) : Prop :=
  match x with
  | S754_nan | S754_zero _ => True
  | S754_infinity s | S754_finite s _ _ => s = false
  end.

(** *** Reading the output

    The events of one call of [get_user_input] that reads [line]. *)
Definition prompt_of (prompt_text : string) (default_value : float) : event :=
  Prompted [Str prompt_text; Lit " [e.g., "; Num Repr default_value; Lit "]: "].

Definition warning_of (default_value : float) : event :=
  Printed [Lit "Invalid input. Using default value: "; Num Repr default_value].

Definition dialogue (prompt_text : string) (default_value : float)
    (line : string) : list event :=
  if String.eqb line "" then [prompt_of prompt_text default_value]
  else match float_of_string line with
       | Some _ => [prompt_of prompt_text default_value]
       | None => [prompt_of prompt_text default_value; warning_of default_value]
       end.

Fixpoint collect {A : Type} (f : event -> option A) (evs : list event)
  : list A :=
  match evs with
  | [] => []
  | ev :: rest =>
      match f ev with
      | Some a => a :: collect f rest
      | None => collect f rest
      end
  end.

(** The surface that a line of output opens the parameters of. *)
Definition section_of (ev : event) : option string :=
  match ev with
  | Printed [Lit a; Str name; Lit b; Str _; Lit c] =>
      if String.eqb a (nl ++ "--- ") && String.eqb b " Parameters "
         && String.eqb c " ---"
      then Some name else None
  | _ => None
  end.

(** The surface and the coefficient that a line of the report names. *)
Definition report_of (ev : event) : option (string * float) :=
  match ev with
  | Printed [Lit a; Str name; Lit b; Num Repr x; Lit c] =>
      if String.eqb a (nl ++ "For the ") && String.eqb b " (using Ch = "
         && String.eqb c "):"
      then Some (name, x) else None
  | _ => None
  end.

Definition sections (evs : list event) : list string := collect section_of evs.

Definition reports (evs : list event) : list (string * float) :=
  collect report_of evs.

(** The line that opens the parameters of a surface. *)
Definition header_of (name : string) (defaults : Defaults.t) : event :=
  Printed [Lit (nl ++ "--- "); Str name; Lit " Parameters ";
           Str (Defaults.note defaults); Lit " ---"].

(** The result for one surface, from the four lines that answer its
    prompts: hinge coefficient, span, root chord, tip chord. *)
Definition surface_result (name : string) (defaults : Defaults.t)
    (dynamic_pressure : float) (l1 l2 l3 l4 : string) : Result.t :=
  let hinge_coeff := entered l1 (Defaults.ch defaults) in
  let span := entered l2 (Defaults.span defaults) in
  let root_chord := entered l3 (Defaults.root_chord defaults) in
  let tip_chord := entered l4 (Defaults.tip_chord defaults) in
  let area := trapezoid_area_formula root_chord tip_chord span in
  let mean_chord := mean_aerodynamic_chord_formula root_chord tip_chord in
  let torque :=
    calculate_hinge_torque dynamic_pressure area mean_chord hinge_coeff in
  Result.mk name hinge_coeff (fst torque) (snd torque).

(** What a line of the report says of a result. *)
Definition reported (res : Result.t) : string * float :=
  (Result.name res, Result.ch res).

(** The three lines of the report for one result. *)
Definition report_lines (res : Result.t) : list event :=
  [ Printed [Lit (nl ++ "For the "); Str (Result.name res);
             Lit " (using Ch = "; Num Repr (Result.ch res); Lit "):"];
    Printed [Lit "  - Required Torque: "; Num (Fixed 4) (Result.torque_nm res);
             Lit " N.m"];
    Printed [Lit "  - Required Torque: "; Num (Fixed 2) (Result.torque_kgcm res);
             Lit " kg-cm"] ].

(** The results for the surfaces [items], four lines for each. *)
Fixpoint surface_results (dynamic_pressure : float)
    (items : list (string * Defaults.t)) (lines : list string)
  : list Result.t :=
  match items, lines with
  | (name, defaults) :: items', l1 :: l2 :: l3 :: l4 :: lines' =>
      surface_result name defaults dynamic_pressure l1 l2 l3 l4
      :: surface_results dynamic_pressure items' lines'
  | _, _ => []
  end.

(** The fixed lines of a run. *)
Definition intro_lines : list event :=
  [ Printed [Lit "--- RC Servo Torque Estimator ---"];
    Printed [Lit "Enter the flight conditions and aircraft parameters in the specified units."];
    Printed [Lit (nl ++ "--- Flight Conditions ---")] ].

Definition pressure_line (dynamic_pressure : float) : event :=
  Printed [Lit (nl ++ "Calculated Dynamic Pressure (q): ");
           Num (Fixed 2) dynamic_pressure; Lit " N/m^2"].

Definition title_line : event :=
  Printed [Lit (nl ++ "--- ESTIMATED SERVO TORQUE REQUIREMENTS ---")].

Definition disclaimer_line : event :=
  Printed [Lit (nl ++ "Disclaimer: This is a theoretical estimation. Always choose a servo with a safety margin (e.g., 1.5x to 2x the estimated torque).")].

(** The output up to the answer to the velocity prompt. *)
Definition flight_dialogue (l1 l2 : string) : list event :=
  (intro_lines
   ++ dialogue "Air density (rho) in kg/m^3" lit_1_225 l1
   ++ dialogue "Aircraft velocity (V) in m/s" lit_18_0 l2)%list.

(** [0.5 * air_density * squared], the air density being the answer [l1]. *)
Definition dynamic_pressure_of (l1 : string) (squared : float) : float :=
  mul (mul lit_0_5 (entered l1 lit_1_225)) squared.

(** The loop of [run_servo_torque_estimation] over [surface_defaults]. *)
Definition surfaces (dynamic_pressure : float) : io (list Result.t) :=
  for_each surface_defaults
    (fun item => process_surface (fst item) (snd item) dynamic_pressure).

(** The text and the default that a prompt shows. *)
Definition question_of (ev : event) : option (string * float) :=
  match ev with
  | Prompted [Str p; Lit a; Num Repr d; Lit b] =>
      if String.eqb a " [e.g., " && String.eqb b "]: " then Some (p, d)
      else None
  | _ => None
  end.

Definition questions (evs : list event) : list (string * float) :=
  collect question_of evs.

(** The default that a warning names. *)
Definition warned_default (ev : event) : option float :=
  match ev with
  | Printed [Lit a; Num Repr d] =>
      if String.eqb a "Invalid input. Using default value: " then Some d
      else None
  | _ => None
  end.

Definition warnings (evs : list event) : list float :=
  collect warned_default evs.

(** The two torques that the lines of a report print, with the number
    of decimals of each. *)
Definition printed_torque (ev : event) : option (nat * float) :=
  match ev with
  | Printed [Lit a; Num (Fixed n) x; Lit _] =>
      if String.eqb a "  - Required Torque: " then Some (n, x) else None
  | _ => None
  end.

Definition printed_torques (evs : list event) : list (nat * float) :=
  collect printed_torque evs.

(** A line that is not empty and that [float] refuses. *)
Definition invalid (line : string) : bool :=
  negb (String.eqb line "")
  && match float_of_string line with Some _ => false | None => true end.

(** The four questions asked for a surface, in the order of the source. *)
Definition surface_questions (name : string) (defaults : Defaults.t)
  : list (string * float) :=
  [ (name ++ " Hinge Moment Coefficient (Ch)", Defaults.ch defaults);
    (name ++ " span in meters", Defaults.span defaults);
    (name ++ " root chord in meters", Defaults.root_chord defaults);
    (name ++ " tip chord in meters", Defaults.tip_chord defaults) ].

(** The fourteen questions of a run. *)
Definition all_questions : list (string * float) :=
  ("Air density (rho) in kg/m^3", lit_1_225)
  :: ("Aircraft velocity (V) in m/s", lit_18_0)
  :: flat_map (fun item => surface_questions (fst item) (snd item))
       surface_defaults.

(** The defaults named by the warnings that the answers [lines] to the
    questions [qs] cause. *)
Fixpoint expected_warnings (qs : list (string * float)) (lines : list string)
  : list float :=
  match qs, lines with
  | (_, d) :: qs', line :: lines' =>
      if invalid line then d :: expected_warnings qs' lines'
      else expected_warnings qs' lines'
  | _, _ => []
  end.

(** The output of the loop over the surfaces [items] when it reads
    [lines], four for each surface. *)
Fixpoint surfaces_dialogue (items : list (string * Defaults.t))
    (lines : list string) : list event :=
  match items, lines with
  | (name, d) :: items', l1 :: l2 :: l3 :: l4 :: lines' =>
      (header_of name d
       :: dialogue (name ++ " Hinge Moment Coefficient (Ch)") (Defaults.ch d) l1
       ++ dialogue (name ++ " span in meters") (Defaults.span d) l2
       ++ dialogue (name ++ " root chord in meters") (Defaults.root_chord d) l3
       ++ dialogue (name ++ " tip chord in meters") (Defaults.tip_chord d) l4
       ++ surfaces_dialogue items' lines')%list
  | _, _ => []
  end.

(** A line made of blanks only. *)
Definition blank (line : string) : bool :=
  forallb is_space (list_ascii_of_string line).

Definition fixed_order : list string := ["Aileron"; "Elevator"; "Rudder"].

(** The run in which every prompt is answered by an empty line. *)
Definition default_run : run (list Result.t) :=
  run_servo_torque_estimation (repeat "" 14%nat).

(** ** The geometric functions and the torque *)

Lemma lit_2_0_is_two : lit_2_0 = of_Z 2.
Proof. reflexivity. Qed.

Lemma truediv_by_two (x : float) : truediv x lit_2_0 = Return (div x (of_Z 2)).
Proof. reflexivity. Qed.

Lemma abs_neg (x : float) : abs (neg x) = abs x.
Proof. destruct x; reflexivity. Qed.

Lemma not_negative_ltb (x : float) : not_negative x -> ltb x zero = false.
Proof. destruct x as [s|s| |s m e]; simpl; intros H; subst; try destruct s; reflexivity. Qed.

Lemma not_negative_leb (x : float) :
  not_negative x -> is_nan x = false -> leb zero x = true.
Proof.
  destruct x as [s|s| |s m e]; simpl; intros H N; subst;
    try discriminate; try destruct s; reflexivity.
Qed.

Lemma non_negative_not_negative (x : float) : non_negative x -> not_negative x.
Proof.
  unfold non_negative.
  destruct x as [s|s| |s m e]; simpl; try destruct s; intros H;
    try reflexivity; try exact I; discriminate.
Qed.

Lemma abs_not_negative (x : float) : not_negative (abs x).
Proof. destruct x; simpl; auto. Qed.

(** Rounding keeps the sign it is given. *)
Lemma binary_round_aux_sign (s : bool) (m e : Z) (l : location) :
  match binary_round_aux prec emax s m e l with
  | S754_nan => True
  | S754_zero s' | S754_infinity s' | S754_finite s' _ _ => s' = s
  end.
Proof.
  unfold binary_round_aux.
  destruct (shr_fexp prec emax m e l) as [mrs' e'].
  destruct (shr_fexp prec emax _ e' loc_Exact) as [mrs'' e''].
  destruct (shr_m mrs''); try exact I; try reflexivity.
  destruct (Z.leb e'' (emax - prec)); reflexivity.
Qed.

Lemma mul_not_negative (x y : float) :
  not_negative x -> not_negative y -> not_negative (mul x y).
Proof.
  destruct x as [sx|sx| |sx mx ex], y as [sy|sy| |sy my ey];
    simpl; intros Hx Hy; subst; try exact I; try reflexivity.
  pose proof (binary_round_aux_sign (xorb false false)
                (Z.pos (mx * my)) (ex + ey) loc_Exact) as H.
  unfold mul, SFmul.
  destruct (binary_round_aux prec emax (xorb false false) _ _ _);
    simpl in *; auto.
Qed.

(** Shifting a mantissa that is not negative to the right leaves it so. *)
Lemma shr_1_nonneg (mrs : shr_record) : 0 <= shr_m mrs -> 0 <= shr_m (shr_1 mrs).
Proof.
  destruct mrs as [m r s]; simpl.
  destruct m as [|p|p]; [| destruct p | destruct p]; simpl; lia.
Qed.

Lemma iter_shr_1_nonneg (p : positive) :
  forall mrs, 0 <= shr_m mrs -> 0 <= shr_m (iter_pos shr_1 p mrs).
Proof.
  induction p as [p IH|p IH|]; intros mrs H; simpl.
  - apply IH, IH, shr_1_nonneg, H.
  - apply IH, IH, H.
  - apply shr_1_nonneg, H.
Qed.

Lemma shr_fexp_nonneg (m e : Z) (l : location) :
  0 <= m -> 0 <= shr_m (fst (shr_fexp prec emax m e l)).
Proof.
  intros H. unfold shr_fexp, shr.
  assert (H0 : 0 <= shr_m (shr_record_of_loc m l))
    by (destruct l as [|[| |]]; exact H).
  destruct (fexp prec emax (Zdigits2 m + e) - e); simpl; auto.
  apply iter_shr_1_nonneg, H0.
Qed.

Lemma round_nearest_even_nonneg (m : Z) (l : location) :
  0 <= m -> 0 <= round_nearest_even m l.
Proof.
  intros H. destruct l as [|[| |]]; simpl; try lia.
  destruct (Z.even m); lia.
Qed.

Lemma binary_round_aux_not_nan (s : bool) (m e : Z) (l : location) :
  0 <= m -> is_nan (binary_round_aux prec emax s m e l) = false.
Proof.
  intros H. unfold binary_round_aux.
  pose proof (shr_fexp_nonneg m e l H) as H1.
  destruct (shr_fexp prec emax m e l) as [mrs' e']. simpl in H1.
  pose proof (shr_fexp_nonneg _ e' loc_Exact
                (round_nearest_even_nonneg _ (loc_of_shr_record mrs') H1)) as H2.
  destruct (shr_fexp prec emax _ e' loc_Exact) as [mrs'' e'']. simpl in H2.
  destruct (shr_m mrs''); try reflexivity; try lia.
  destruct (Z.leb e'' (emax - prec)); reflexivity.
Qed.

(** A product with a finite factor that is not zero is a NaN only if
    the other factor is one. *)
Lemma mul_finite_not_nan (x : float) (s : bool) (m : positive) (e : Z) :
  is_nan x = false -> is_nan (mul x (S754_finite s m e)) = false.
Proof.
  destruct x as [sx|sx| |sx mx ex]; simpl; intros H;
    try reflexivity; try discriminate.
  apply binary_round_aux_not_nan. lia.
Qed.


(** C1.  [calculate_hinge_torque(q, A, c, h)] returns the pair of
    [q * A * c * abs(h)] and of that torque times [NM_TO_KGCM]; the
    constant is the literal 10.1972 and not the quotient 1 / 0.0980665
    computed anew. *)
Theorem calculate_hinge_torque_formula (q A c h : float) :
  fst (calculate_hinge_torque q A c h) = mul (mul (mul q A) c) (abs h) /\
  snd (calculate_hinge_torque q A c h)
    = mul (fst (calculate_hinge_torque q A c h)) NM_TO_KGCM /\
  NM_TO_KGCM = float_literal "10.1972" /\
  NM_TO_KGCM <> div (float_literal "1.0") (float_literal "0.0980665").
Proof.
  repeat split.
  vm_compute. discriminate.
Qed.

(** C3.  The torque does not see the sign of the hinge coefficient:
    both components are the same for [h] and for [-h]. *)
Theorem calculate_hinge_torque_sign_invariant (q A c h : float) :
  calculate_hinge_torque q A c h = calculate_hinge_torque q A c (neg h).
Proof.
  unfold calculate_hinge_torque. rewrite abs_neg. reflexivity.
Qed.

(** C5.  For chords and a span that are not negative,
    [calculate_trapezoid_area] returns [(root_chord + tip_chord) * span / 2]. *)
Theorem calculate_trapezoid_area_formula (root_chord tip_chord span : float) :
  non_negative root_chord -> non_negative tip_chord -> non_negative span ->
  calculate_trapezoid_area root_chord tip_chord span
    = Return (trapezoid_area_formula root_chord tip_chord span).
Proof.
  intros _ _ _. unfold calculate_trapezoid_area, trapezoid_area_formula.
  apply truediv_by_two.
Qed.

Lemma calculate_trapezoid_area_formula_witness :
  non_negative (float_literal "0.110") /\
  non_negative (float_literal "0.050") /\
  non_negative (float_literal "0.924") /\
  calculate_trapezoid_area (float_literal "0.110") (float_literal "0.050")
    (float_literal "0.924")
  = Return (trapezoid_area_formula (float_literal "0.110")
              (float_literal "0.050") (float_literal "0.924")).
Proof.
  split; [reflexivity | split; [reflexivity | split; [reflexivity |]]].
  apply calculate_trapezoid_area_formula; reflexivity.
Defined.

(** C6.  [calculate_mean_aerodynamic_chord] returns
    [(root_chord + tip_chord) / 2], whatever the chords. *)
Theorem calculate_mean_aerodynamic_chord_formula (root_chord tip_chord : float) :
  calculate_mean_aerodynamic_chord root_chord tip_chord
    = Return (mean_aerodynamic_chord_formula root_chord tip_chord).
Proof.
  unfold calculate_mean_aerodynamic_chord, mean_aerodynamic_chord_formula.
  apply truediv_by_two.
Qed.

(** C7.  The two geometric functions have no failure mode: for every
    input, negative chords and spans included, each returns the result
    of its formula and never raises.  The only operation in them that
    can raise is the division, and its divisor is the constant 2.0.
    Negative chords are taken as they are and give a negative area:
    chords of -0.110 and -0.050 with a span of 0.924 give -0.07392. *)
Theorem geometric_functions_total (root_chord tip_chord span : float) :
  calculate_trapezoid_area root_chord tip_chord span
  = Return (trapezoid_area_formula root_chord tip_chord span) /\
  calculate_mean_aerodynamic_chord root_chord tip_chord
  = Return (mean_aerodynamic_chord_formula root_chord tip_chord) /\
  calculate_trapezoid_area (float_literal "-0.110") (float_literal "-0.050")
    (float_literal "0.924") = Return (float_literal "-0.07392") /\
  ltb (float_literal "-0.07392") zero = true.
Proof.
  split; [| split; [| split]].
  - unfold calculate_trapezoid_area, trapezoid_area_formula.
    apply truediv_by_two.
  - unfold calculate_mean_aerodynamic_chord, mean_aerodynamic_chord_formula.
    apply truediv_by_two.
  - vm_compute. reflexivity.
  - reflexivity.
Qed.

(** C10, as the code has it.  For a dynamic pressure, an area and a mean
    chord that are not negative and any hinge coefficient, no component
    of the torque is below zero: each is not negative or is a NaN, and
    when the torque in N.m is not a NaN both are not negative. *)
Theorem calculate_hinge_torque_not_negative (q A c h : float) :
  non_negative q -> non_negative A -> non_negative c ->
  ltb (fst (calculate_hinge_torque q A c h)) zero = false /\
  ltb (snd (calculate_hinge_torque q A c h)) zero = false /\
  (is_nan (fst (calculate_hinge_torque q A c h)) = false ->
   non_negative (fst (calculate_hinge_torque q A c h)) /\
   non_negative (snd (calculate_hinge_torque q A c h))).
Proof.
  intros Hq HA Hc.
  apply non_negative_not_negative in Hq, HA, Hc.
  assert (Hnm : not_negative (fst (calculate_hinge_torque q A c h))).
  { simpl. repeat apply mul_not_negative; auto using abs_not_negative. }
  assert (Hkg : not_negative (snd (calculate_hinge_torque q A c h))).
  { change (snd (calculate_hinge_torque q A c h))
      with (mul (fst (calculate_hinge_torque q A c h)) NM_TO_KGCM).
    apply mul_not_negative; [exact Hnm | reflexivity]. }
  split; [apply not_negative_ltb, Hnm |].
  split; [apply not_negative_ltb, Hkg |].
  intros Hnan. split.
  - apply not_negative_leb; assumption.
  - apply not_negative_leb; [exact Hkg |].
    change (snd (calculate_hinge_torque q A c h))
      with (mul (fst (calculate_hinge_torque q A c h)) NM_TO_KGCM).
    apply mul_finite_not_nan, Hnan.
Qed.

Lemma calculate_hinge_torque_not_negative_witness :
  non_negative (float_literal "198.45") /\
  non_negative (float_literal "0.07392") /\
  non_negative (float_literal "0.08") /\
  non_negative
    (fst (calculate_hinge_torque (float_literal "198.45")
            (float_literal "0.07392") (float_literal "0.08")
            (float_literal "-0.15"))) /\
  non_negative
    (snd (calculate_hinge_torque (float_literal "198.45")
            (float_literal "0.07392") (float_literal "0.08")
            (float_literal "-0.15"))).
Proof.
  split; [reflexivity | split; [reflexivity | split; [reflexivity |]]].
  apply (calculate_hinge_torque_not_negative (float_literal "198.45")
           (float_literal "0.07392") (float_literal "0.08")
           (float_literal "-0.15")); reflexivity.
Defined.

(** C10, as it is stated, fails: the product of two large finite factors
    overflows to an infinity, and an infinity times zero is a NaN, which
    is not [>= 0]. *)
Lemma calculate_hinge_torque_nan_counterexample :
  non_negative (float_literal "1e200") /\
  non_negative (float_literal "0.0") /\
  calculate_hinge_torque (float_literal "1e200") (float_literal "1e200")
    (float_literal "0.0") (float_literal "1.0") = (S754_nan, S754_nan) /\
  ~ non_negative
      (fst (calculate_hinge_torque (float_literal "1e200") (float_literal "1e200")
              (float_literal "0.0") (float_literal "1.0"))) /\
  ~ non_negative
      (snd (calculate_hinge_torque (float_literal "1e200") (float_literal "1e200")
              (float_literal "0.0") (float_literal "1.0"))).
Proof.
  split; [reflexivity | split; [reflexivity |]].
  split; [vm_compute; reflexivity |].
  split; vm_compute; discriminate.
Qed.

(** ** Reading lines and writing text *)

Arguments get_user_input : simpl never.

Lemma after_mkRun {A} (evs : list event) (o : outcome A) rest evs' :
  after evs (mkRun o rest evs') = mkRun o rest (evs ++ evs')%list.
Proof. reflexivity. Qed.

Lemma bind_Return {A B} (m : io A) (k : A -> io B) stdin a rest evs :
  m stdin = mkRun (Return a) rest evs ->
  bind m k stdin = after evs (k a rest).
Proof. intros H. unfold bind. rewrite H. reflexivity. Qed.

Lemma bind_Raise {A B} (m : io A) (k : A -> io B) stdin e rest evs :
  m stdin = mkRun (Raise e) rest evs ->
  bind m k stdin = mkRun (Raise e) rest evs.
Proof. intros H. unfold bind. rewrite H. reflexivity. Qed.

Section Dialogue.

Variables (prompt_text : string) (default_value : float).

Lemma get_user_input_line (line : string) (rest : list string) :
  get_user_input prompt_text default_value (line :: rest)
  = mkRun (Return (entered line default_value)) rest
      (dialogue prompt_text default_value line).
Proof.
  unfold get_user_input, try_except, bind, input, entered, dialogue.
  cbn [result unread emitted].
  destruct (String.eqb line ""); [reflexivity |].
  cbn [lift of_str float_type result].
  destruct (float_of_string line); reflexivity.
Qed.

Lemma get_user_input_eof :
  get_user_input (T := float) prompt_text default_value []
  = mkRun (Raise EOFError) [] [prompt_of prompt_text default_value].
Proof. reflexivity. Qed.

End Dialogue.

Lemma collect_app {A : Type} (f : event -> option A) (xs ys : list event) :
  collect f (xs ++ ys)%list = (collect f xs ++ collect f ys)%list.
Proof.
  induction xs as [|x xs IH]; simpl; [reflexivity |].
  destruct (f x); simpl; rewrite IH; reflexivity.
Qed.

Lemma sections_dialogue p d l : sections (dialogue p d l) = [].
Proof.
  unfold dialogue.
  destruct (String.eqb l ""); [reflexivity |].
  destruct (float_of_string l); reflexivity.
Qed.

Lemma reports_dialogue p d l : reports (dialogue p d l) = [].
Proof.
  unfold dialogue.
  destruct (String.eqb l ""); [reflexivity |].
  destruct (float_of_string l); reflexivity.
Qed.

Ltac io_step :=
  first
    [ erewrite bind_Return by first [apply get_user_input_line | reflexivity]
    | erewrite bind_Raise by first [apply get_user_input_eof | reflexivity] ].


Arguments dialogue : simpl never.
Arguments entered : simpl never.

Lemma sections_app xs ys : sections (xs ++ ys)%list = (sections xs ++ sections ys)%list.
Proof. apply collect_app. Qed.

Lemma reports_app xs ys : reports (xs ++ ys)%list = (reports xs ++ reports ys)%list.
Proof. apply collect_app. Qed.

Lemma sections_cons ev evs :
  sections (ev :: evs) = (sections [ev] ++ sections evs)%list.
Proof. apply (sections_app [ev] evs). Qed.

Lemma reports_cons ev evs :
  reports (ev :: evs) = (reports [ev] ++ reports evs)%list.
Proof. apply (reports_app [ev] evs). Qed.

Lemma sections_header name d : sections [header_of name d] = [name].
Proof. reflexivity. Qed.

Lemma reports_header name d : reports [header_of name d] = [].
Proof. reflexivity. Qed.

Lemma sections_prompt p d : sections [prompt_of p d] = [].
Proof. reflexivity. Qed.

Lemma reports_prompt p d : reports [prompt_of p d] = [].
Proof. reflexivity. Qed.

Section Surface.

Variables (name : string) (d : Defaults.t) (q : float).

Let p1 := name ++ " Hinge Moment Coefficient (Ch)".
Let p2 := name ++ " span in meters".
Let p3 := name ++ " root chord in meters".
Let p4 := name ++ " tip chord in meters".

Lemma process_surface_lines l1 l2 l3 l4 rest :
  process_surface name d q (l1 :: l2 :: l3 :: l4 :: rest)
  = mkRun (Return (surface_result name d q l1 l2 l3 l4)) rest
      (header_of name d
       :: dialogue p1 (Defaults.ch d) l1
       ++ dialogue p2 (Defaults.span d) l2
       ++ dialogue p3 (Defaults.root_chord d) l3
       ++ dialogue p4 (Defaults.tip_chord d) l4)%list.
Proof.
  unfold process_surface. do 7 io_step.
  unfold after; cbn [result unread emitted app ret].
  rewrite !app_nil_r. reflexivity.
Qed.

Lemma process_surface_eof_0 :
  process_surface name d q []
  = mkRun (Raise EOFError) []
      [header_of name d; prompt_of p1 (Defaults.ch d)].
Proof. reflexivity. Qed.

Lemma process_surface_eof_1 l1 :
  process_surface name d q [l1]
  = mkRun (Raise EOFError) []
      (header_of name d
       :: dialogue p1 (Defaults.ch d) l1
       ++ [prompt_of p2 (Defaults.span d)])%list.
Proof.
  unfold process_surface. do 3 io_step. reflexivity.
Qed.

Lemma process_surface_eof_2 l1 l2 :
  process_surface name d q [l1; l2]
  = mkRun (Raise EOFError) []
      (header_of name d
       :: dialogue p1 (Defaults.ch d) l1
       ++ dialogue p2 (Defaults.span d) l2
       ++ [prompt_of p3 (Defaults.root_chord d)])%list.
Proof.
  unfold process_surface. do 4 io_step. reflexivity.
Qed.

Lemma process_surface_eof_3 l1 l2 l3 :
  process_surface name d q [l1; l2; l3]
  = mkRun (Raise EOFError) []
      (header_of name d
       :: dialogue p1 (Defaults.ch d) l1
       ++ dialogue p2 (Defaults.span d) l2
       ++ dialogue p3 (Defaults.root_chord d) l3
       ++ [prompt_of p4 (Defaults.tip_chord d)])%list.
Proof.
  unfold process_surface. do 5 io_step. reflexivity.
Qed.

End Surface.

Lemma display_result_run res stdin :
  display_result res stdin = mkRun (Return tt) stdin (report_lines res).
Proof. reflexivity. Qed.

Lemma display_results_run results :
  forall stdin,
    for_each_ results display_result stdin
    = mkRun (Return tt) stdin (flat_map report_lines results).
Proof.
  induction results as [|res results IH]; intros stdin; [reflexivity |].
  cbn [for_each_ flat_map].
  erewrite bind_Return by apply display_result_run.
  rewrite IH. reflexivity.
Qed.

Lemma sections_report_lines results : sections (flat_map report_lines results) = [].
Proof.
  induction results as [|res results IH]; [reflexivity |].
  cbn [flat_map]. rewrite sections_app, IH. reflexivity.
Qed.

Lemma reports_report_lines results :
  reports (flat_map report_lines results) = map reported results.
Proof.
  induction results as [|res results IH]; [reflexivity |].
  cbn [flat_map map]. rewrite reports_app, IH. reflexivity.
Qed.

Create Rewrite HintDb observe.
#[local] Hint Rewrite sections_app reports_app sections_dialogue reports_dialogue
  sections_header reports_header sections_prompt reports_prompt
  sections_report_lines reports_report_lines app_nil_r : observe.

Ltac split_cons :=
  repeat match goal with
         | |- context [sections (?ev :: ?evs)] =>
             lazymatch evs with
             | [] => fail
             | _ => rewrite (sections_cons ev evs)
             end
         | |- context [reports (?ev :: ?evs)] =>
             lazymatch evs with
             | [] => fail
             | _ => rewrite (reports_cons ev evs)
             end
         end.

Ltac observe :=
  repeat progress (split_cons; autorewrite with observe; cbn [app]).

Lemma bind_ret {A B} (m : io A) (f : A -> B) stdin :
  bind m (fun a => ret (f a)) stdin
  = mkRun match result (m stdin) with
          | Return a => Return (f a)
          | Raise e => Raise e
          end (unread (m stdin)) (emitted (m stdin)).
Proof.
  unfold bind. destruct (m stdin) as [[a|e] rest evs]; cbn; [| reflexivity].
  unfold after; cbn. rewrite app_nil_r. reflexivity.
Qed.

Section Surfaces.

Variable q : float.

Let body := fun item : string * Defaults.t => process_surface (fst item) (snd item) q.

Lemma names_surface_results items :
  forall lines,
    (4 * List.length items <= List.length lines)%nat ->
    map Result.name (surface_results q items lines) = map fst items.
Proof.
  induction items as [|[name d] items IH]; intros lines H; [reflexivity |].
  destruct lines as [|l1 [|l2 [|l3 [|l4 lines]]]]; cbn [List.length] in H; try lia.
  cbn [surface_results map fst]. rewrite IH by lia. reflexivity.
Qed.

Lemma for_each_surfaces items :
  forall lines,
    reports (emitted (for_each items body lines)) = [] /\
    if (4 * List.length items <=? List.length lines)%nat then
      result (for_each items body lines) = Return (surface_results q items lines) /\
      unread (for_each items body lines) = skipn (4 * List.length items) lines /\
      sections (emitted (for_each items body lines)) = map fst items
    else
      result (for_each items body lines) = Raise EOFError /\
      exists k, sections (emitted (for_each items body lines)) = firstn k (map fst items).
Proof.
  induction items as [|[name d] items IH]; intros lines.
  - split; [reflexivity |]. repeat split; reflexivity.
  - cbn [for_each]. change (body (name, d)) with (process_surface name d q).
    assert (Hshort : forall ls : list string, (List.length ls < 4)%nat ->
              (4 * List.length ((name, d) :: items) <=? List.length ls)%nat = false)
      by (intros ls Hls; apply Nat.leb_gt; cbn [List.length]; lia).
    destruct lines as [|l1 [|l2 [|l3 [|l4 lines]]]].
    + erewrite bind_Raise by apply process_surface_eof_0.
      rewrite Hshort by (cbn; lia). cbn [result unread emitted].
      split; [reflexivity |]. split; [reflexivity |]. exists 1%nat. reflexivity.
    + erewrite bind_Raise by apply process_surface_eof_1.
      rewrite Hshort by (cbn; lia). cbn [result unread emitted].
      split; [observe; reflexivity |].
      split; [reflexivity |]. exists 1%nat. observe. reflexivity.
    + erewrite bind_Raise by apply process_surface_eof_2.
      rewrite Hshort by (cbn; lia). cbn [result unread emitted].
      split; [observe; reflexivity |].
      split; [reflexivity |]. exists 1%nat. observe. reflexivity.
    + erewrite bind_Raise by apply process_surface_eof_3.
      rewrite Hshort by (cbn; lia). cbn [result unread emitted].
      split; [observe; reflexivity |].
      split; [reflexivity |]. exists 1%nat. observe. reflexivity.
    + erewrite bind_Return by apply process_surface_lines.
      rewrite bind_ret.
      specialize (IH lines). destruct IH as [IHr IH].
      replace (4 * List.length ((name, d) :: items) <=? List.length (l1 :: l2 :: l3 :: l4 :: lines))%nat
        with (4 * List.length items <=? List.length lines)%nat
        by (apply eq_true_iff_eq; rewrite !Nat.leb_le; cbn [List.length]; lia).
      replace (skipn (4 * List.length ((name, d) :: items)) (l1 :: l2 :: l3 :: l4 :: lines))
        with (skipn (4 * List.length items) lines)
        by (cbn [List.length]; replace (4 * S (List.length items))%nat with (4 + 4 * List.length items)%nat by lia; reflexivity).
      unfold after. cbn [result unread emitted].
      split; [observe; exact IHr |].
      destruct (4 * List.length items <=? List.length lines)%nat.
      * destruct IH as (Hres & Hun & Hs). rewrite Hres.
        split; [reflexivity |]. split; [exact Hun |].
        observe. rewrite Hs. reflexivity.
      * destruct IH as (Hres & k & Hs). rewrite Hres.
        split; [reflexivity |].
        exists (S k). observe. rewrite Hs. reflexivity.
Qed.

End Surfaces.

Lemma run_eof_0 :
  run_servo_torque_estimation []
  = mkRun (Raise EOFError) []
      (intro_lines ++ [prompt_of "Air density (rho) in kg/m^3" lit_1_225])%list.
Proof. reflexivity. Qed.

Lemma run_eof_1 l1 :
  run_servo_torque_estimation [l1]
  = mkRun (Raise EOFError) []
      (intro_lines ++ dialogue "Air density (rho) in kg/m^3" lit_1_225 l1
       ++ [prompt_of "Aircraft velocity (V) in m/s" lit_18_0])%list.
Proof.
  unfold run_servo_torque_estimation. do 5 io_step. reflexivity.
Qed.

Lemma run_overflow l1 l2 lines e :
  pow2 (entered l2 lit_18_0) = Raise e ->
  run_servo_torque_estimation (l1 :: l2 :: lines)
  = mkRun (Raise e) lines (flight_dialogue l1 l2).
Proof.
  intros H. unfold run_servo_torque_estimation. do 5 io_step.
  erewrite bind_Raise by (unfold lift; rewrite H; reflexivity).
  unfold after, flight_dialogue; cbn [result unread emitted app intro_lines].
  rewrite !app_nil_r. reflexivity.
Qed.

Lemma run_surfaces_raise l1 l2 lines sq e rest evs :
  pow2 (entered l2 lit_18_0) = Return sq ->
  surfaces (dynamic_pressure_of l1 sq) lines = mkRun (Raise e) rest evs ->
  run_servo_torque_estimation (l1 :: l2 :: lines)
  = mkRun (Raise e) rest
      (flight_dialogue l1 l2
       ++ pressure_line (dynamic_pressure_of l1 sq) :: evs)%list.
Proof.
  intros H Hs. unfold run_servo_torque_estimation. do 5 io_step.
  erewrite bind_Return by (unfold lift; rewrite H; reflexivity).
  io_step.
  erewrite bind_Raise by exact Hs.
  unfold after, flight_dialogue; cbn [result unread emitted app intro_lines].
  rewrite <- ?app_assoc. rewrite ?app_nil_r. reflexivity.
Qed.

Lemma run_surfaces_return l1 l2 lines sq results rest evs :
  pow2 (entered l2 lit_18_0) = Return sq ->
  surfaces (dynamic_pressure_of l1 sq) lines = mkRun (Return results) rest evs ->
  run_servo_torque_estimation (l1 :: l2 :: lines)
  = mkRun (Return results) rest
      (flight_dialogue l1 l2
       ++ pressure_line (dynamic_pressure_of l1 sq) :: evs
       ++ title_line :: flat_map report_lines results ++ [disclaimer_line])%list.
Proof.
  intros H Hs. unfold run_servo_torque_estimation. do 5 io_step.
  erewrite bind_Return by (unfold lift; rewrite H; reflexivity).
  io_step.
  erewrite bind_Return by exact Hs.
  io_step.
  erewrite bind_Return by apply display_results_run.
  io_step.
  cbv [after result unread emitted ret].
  unfold flight_dialogue, intro_lines.
  rewrite <- ?app_assoc, ?app_nil_r. reflexivity.
Qed.

(** C2, as the code has it.  Once a line has been read,
    [get_user_input] returns: the default for the empty line, the parsed
    number for a line that [float] accepts, and the default after a
    warning that names it for any other line.  Only [ValueError] is
    caught: at the end of the input the [EOFError] of [input] reaches
    the caller, and that is the only way the function raises. *)
Theorem get_user_input_behaviour (prompt_text : string) (default_value : float) :
  (forall (line : string) (rest : list string),
     get_user_input prompt_text default_value (line :: rest)
     = if String.eqb line "" then
         mkRun (Return default_value) rest [prompt_of prompt_text default_value]
       else
         match float_of_string line with
         | Some x =>
             mkRun (Return x) rest [prompt_of prompt_text default_value]
         | None =>
             mkRun (Return default_value) rest
               [prompt_of prompt_text default_value; warning_of default_value]
         end) /\
  get_user_input (T := float) prompt_text default_value []
  = mkRun (Raise EOFError) [] [prompt_of prompt_text default_value] /\
  (forall stdin : list string,
     (exists x : float,
        result (get_user_input prompt_text default_value stdin) = Return x)
     <-> stdin <> []).
Proof.
  split; [| split].
  - intros line rest. rewrite get_user_input_line.
    unfold entered, dialogue.
    destruct (String.eqb line ""); [reflexivity |].
    destruct (float_of_string line); reflexivity.
  - reflexivity.
  - intros [|line rest]; split.
    + intros [x H]. discriminate H.
    + intros H. congruence.
    + discriminate.
    + intros _. rewrite get_user_input_line. eexists. reflexivity.
Qed.

(** C2, as it is stated, fails: with no line left to read the function
    raises instead of returning a value. *)
Lemma get_user_input_eof_counterexample :
  result (get_user_input (T := float) "Air density (rho) in kg/m^3" lit_1_225 [])
  = Raise EOFError /\
  ~ (exists x : float,
       result (get_user_input "Air density (rho) in kg/m^3" lit_1_225 [])
       = Return x).
Proof.
  split; [reflexivity |]. intros [x H]. discriminate H.
Qed.

Lemma surfaces_observed q lines :
  reports (emitted (surfaces q lines)) = [] /\
  if (12 <=? List.length lines)%nat then
    result (surfaces q lines) = Return (surface_results q surface_defaults lines) /\
    unread (surfaces q lines) = skipn 12 lines /\
    sections (emitted (surfaces q lines)) = fixed_order
  else
    result (surfaces q lines) = Raise EOFError /\
    exists k, sections (emitted (surfaces q lines)) = firstn k fixed_order.
Proof. exact (for_each_surfaces q surface_defaults lines). Qed.

Lemma sections_flight_dialogue l1 l2 : sections (flight_dialogue l1 l2) = [].
Proof. unfold flight_dialogue, intro_lines. observe. reflexivity. Qed.

Lemma reports_flight_dialogue l1 l2 : reports (flight_dialogue l1 l2) = [].
Proof. unfold flight_dialogue, intro_lines. observe. reflexivity. Qed.

Lemma pow2_raises x e : pow2 x = Raise e -> e = OverflowError.
Proof.
  unfold pow2. destruct (is_finite x && is_infinite (mul x x)); congruence.
Qed.

Lemma sections_pressure_line q : sections [pressure_line q] = [].
Proof. reflexivity. Qed.

Lemma reports_pressure_line q : reports [pressure_line q] = [].
Proof. reflexivity. Qed.

Lemma sections_title_line : sections [title_line] = [].
Proof. reflexivity. Qed.

Lemma reports_title_line : reports [title_line] = [].
Proof. reflexivity. Qed.

Lemma sections_disclaimer_line : sections [disclaimer_line] = [].
Proof. reflexivity. Qed.

Lemma reports_disclaimer_line : reports [disclaimer_line] = [].
Proof. reflexivity. Qed.

#[local] Hint Rewrite sections_flight_dialogue reports_flight_dialogue
  sections_pressure_line reports_pressure_line sections_title_line
  reports_title_line sections_disclaimer_line reports_disclaimer_line : observe.

(** C8.  Whatever the input, the surfaces are processed and reported in
    the order Aileron, Elevator, Rudder.  A run that returns has the three
    results, the three parameter sections and the three report entries in
    that order; a run that raises has opened a prefix of the sections and
    reported nothing.  The run returns exactly when fourteen lines are
    there and the square of the velocity does not overflow. *)
Theorem run_fixed_order (stdin : list string) :
  match result (run_servo_torque_estimation stdin) with
  | Return results =>
      map Result.name results = fixed_order /\
      sections (emitted (run_servo_torque_estimation stdin)) = fixed_order /\
      map fst (reports (emitted (run_servo_torque_estimation stdin))) = fixed_order
  | Raise _ =>
      reports (emitted (run_servo_torque_estimation stdin)) = [] /\
      exists k, sections (emitted (run_servo_torque_estimation stdin))
                = firstn k fixed_order
  end /\
  ((exists results, result (run_servo_torque_estimation stdin) = Return results)
   <-> (14 <= List.length stdin)%nat /\
       exists squared, pow2 (entered (nth 1 stdin "") lit_18_0) = Return squared).
Proof.
  destruct stdin as [|l1 [|l2 lines]].
  - rewrite run_eof_0. cbn [result emitted]. split.
    + split; [reflexivity | exists 0%nat; reflexivity].
    + split; [intros [r H]; discriminate H | cbn [List.length]; lia].
  - rewrite run_eof_1. cbn [result emitted]. split.
    + split; [unfold intro_lines; observe; reflexivity |].
      exists 0%nat. unfold intro_lines. observe. reflexivity.
    + split; [intros [r H]; discriminate H | cbn [List.length]; lia].
  - cbn [nth].
    destruct (pow2 (entered l2 lit_18_0)) as [sq|e] eqn:Hsq.
    + pose proof (surfaces_observed (dynamic_pressure_of l1 sq) lines) as [Hr Hs].
      destruct (surfaces (dynamic_pressure_of l1 sq) lines) as [[results|e] rest evs] eqn:Hsurf;
        cbn [result unread emitted] in Hr, Hs.
      * rewrite (run_surfaces_return _ _ _ _ _ _ _ Hsq Hsurf). cbn [result emitted].
        destruct (Nat.leb_spec 12 (List.length lines)) as [Hlen|Hlen];
          [| destruct Hs as [Hs _]; discriminate Hs].
        destruct Hs as (Hres & _ & Hsec).
        assert (Hres' : results = surface_results (dynamic_pressure_of l1 sq) surface_defaults lines)
          by congruence.
        clear Hres Hsurf. subst results.
        split.
        -- split; [apply names_surface_results; cbn; lia |].
           split; [observe; rewrite Hsec; reflexivity |].
           observe. rewrite ?Hr. cbn [app]. rewrite map_map.
           apply names_surface_results. cbn; lia.
        -- split; [intros _ | intros _; eexists; reflexivity].
           split; [cbn [List.length]; lia | eexists; reflexivity].
      * rewrite (run_surfaces_raise _ _ _ _ _ _ _ Hsq Hsurf). cbn [result emitted].
        destruct (Nat.leb_spec 12 (List.length lines)) as [Hlen|Hlen];
          [destruct Hs as [Hs _]; discriminate Hs |].
        destruct Hs as (_ & k & Hsec).
        split.
        -- split; [observe; exact Hr |].
           exists k. observe. exact Hsec.
        -- split; [intros [r H]; discriminate H |].
           cbn [List.length]. lia.
    + rewrite (run_overflow _ _ _ _ Hsq). cbn [result emitted]. split.
      * split; [observe; reflexivity | exists 0%nat; observe; reflexivity].
      * split; [intros [r H]; discriminate H |].
        intros [_ [sq H]]. discriminate H.
Qed.

Lemma reports_of_run (stdin : list string) :
  match result (run_servo_torque_estimation stdin) with
  | Return results =>
      reports (emitted (run_servo_torque_estimation stdin)) = map reported results
  | Raise _ => reports (emitted (run_servo_torque_estimation stdin)) = []
  end.
Proof.
  destruct stdin as [|l1 [|l2 lines]].
  - reflexivity.
  - rewrite run_eof_1. cbn [result emitted]. unfold intro_lines. observe. reflexivity.
  - destruct (pow2 (entered l2 lit_18_0)) as [sq|e] eqn:Hsq.
    + pose proof (surfaces_observed (dynamic_pressure_of l1 sq) lines) as [Hr _].
      destruct (surfaces (dynamic_pressure_of l1 sq) lines)
        as [[results|e] rest evs] eqn:Hsurf; cbn [emitted] in Hr.
      * rewrite (run_surfaces_return _ _ _ _ _ _ _ Hsq Hsurf). cbn [result emitted].
        observe. rewrite Hr. reflexivity.
      * rewrite (run_surfaces_raise _ _ _ _ _ _ _ Hsq Hsurf). cbn [result emitted].
        observe. exact Hr.
    + rewrite (run_overflow _ _ _ _ Hsq). cbn [result emitted]. observe. reflexivity.
Qed.

(** C9.  [process_surface] stores the hinge coefficient as
    [get_user_input] returned it, sign included, while the torque is
    computed from its absolute value; the report of a run prints the
    stored coefficient of each result, and the run on the defaults
    reports the negative defaults -0.15, -0.10 and -0.10. *)
Theorem hinge_coefficient_reported_as_entered :
  (forall (name : string) (defaults : Defaults.t) (q : float)
          (l1 l2 l3 l4 : string) (rest : list string),
     exists (res : Result.t) (area chord : float),
       result (process_surface name defaults q (l1 :: l2 :: l3 :: l4 :: rest))
       = Return res /\
       result (get_user_input (name ++ " Hinge Moment Coefficient (Ch)")
                 (Defaults.ch defaults) (l1 :: l2 :: l3 :: l4 :: rest))
       = Return (Result.ch res) /\
       calculate_trapezoid_area (entered l3 (Defaults.root_chord defaults))
         (entered l4 (Defaults.tip_chord defaults))
         (entered l2 (Defaults.span defaults)) = Return area /\
       calculate_mean_aerodynamic_chord (entered l3 (Defaults.root_chord defaults))
         (entered l4 (Defaults.tip_chord defaults)) = Return chord /\
       Result.torque_nm res = mul (mul (mul q area) chord) (abs (Result.ch res)) /\
       Result.torque_kgcm res = mul (Result.torque_nm res) NM_TO_KGCM) /\
  (forall stdin : list string,
     match result (run_servo_torque_estimation stdin) with
     | Return results =>
         reports (emitted (run_servo_torque_estimation stdin))
         = map (fun res => (Result.name res, Result.ch res)) results
     | Raise _ => reports (emitted (run_servo_torque_estimation stdin)) = []
     end) /\
  reports (emitted default_run)
  = [ ("Aileron", neg (float_literal "0.15"));
      ("Elevator", neg (float_literal "0.10"));
      ("Rudder", neg (float_literal "0.10")) ] /\
  Forall (fun entry => ltb (snd entry) zero = true) (reports (emitted default_run)).
Proof.
  split; [| split; [exact reports_of_run | split]].
  - intros name defaults q l1 l2 l3 l4 rest.
    rewrite process_surface_lines, get_user_input_line. cbn [result].
    eexists; eexists; eexists.
    split; [reflexivity |]. split; [reflexivity |].
    split; [apply truediv_by_two |]. split; [apply truediv_by_two |].
    split; reflexivity.
  - vm_compute. reflexivity.
  - vm_compute. repeat constructor.
Qed.

(** C4, as the code has it.  On the defaults, the dynamic pressure is
    198.45, the area of the aileron 0.07392 and its mean chord 0.080, each
    within 1e-9; the torque of the aileron is 0.17603 N.m and 1.7950
    kg.cm, to the last digit given; these are the numbers that the run on
    the defaults prints and returns. *)
Theorem default_run_scenario :
  exists (squared area chord : float) (others : list Result.t),
    pow2 lit_18_0 = Return squared /\
    within (mul (mul lit_0_5 lit_1_225) squared) (19845 # 100) (1 # 1000000000)
    = true /\
    hd_error surface_defaults
    = Some ("Aileron",
            Defaults.mk (neg (float_literal "0.15")) (float_literal "0.924")
              (float_literal "0.110") (float_literal "0.050")
              "(Single Aileron)") /\
    calculate_trapezoid_area (float_literal "0.110") (float_literal "0.050")
      (float_literal "0.924") = Return area /\
    within area (7392 # 100000) (1 # 1000000000) = true /\
    calculate_mean_aerodynamic_chord (float_literal "0.110")
      (float_literal "0.050") = Return chord /\
    within chord (80 # 1000) (1 # 1000000000) = true /\
    within
      (fst (calculate_hinge_torque (mul (mul lit_0_5 lit_1_225) squared)
              area chord (neg (float_literal "0.15"))))
      (17603 # 100000) (5 # 1000000) = true /\
    within
      (snd (calculate_hinge_torque (mul (mul lit_0_5 lit_1_225) squared)
              area chord (neg (float_literal "0.15"))))
      (17950 # 10000) (5 # 100000) = true /\
    In (pressure_line (mul (mul lit_0_5 lit_1_225) squared)) (emitted default_run) /\
    result default_run
    = Return
        (Result.mk "Aileron" (neg (float_literal "0.15"))
           (fst (calculate_hinge_torque (mul (mul lit_0_5 lit_1_225) squared)
                   area chord (neg (float_literal "0.15"))))
           (snd (calculate_hinge_torque (mul (mul lit_0_5 lit_1_225) squared)
                   area chord (neg (float_literal "0.15"))))
         :: others).
Proof.
  eexists; eexists; eexists; eexists.
  split; [vm_compute; reflexivity |].
  split; [vm_compute; reflexivity |].
  split; [vm_compute; reflexivity |].
  split; [vm_compute; reflexivity |].
  split; [vm_compute; reflexivity |].
  split; [vm_compute; reflexivity |].
  split; [vm_compute; reflexivity |].
  split; [vm_compute; reflexivity |].
  split; [vm_compute; reflexivity |].
  split; [vm_compute; do 5 right; left; reflexivity |].
  vm_compute. reflexivity.
Qed.

(** C4, as it is stated, fails: the torque that the run on the defaults
    returns for the aileron is 0.176033088 N.m and 1.795044605 kg.cm, off
    the stated 0.17586 and 1.7936 by more than 1e-4 and 1e-3. *)
Lemma default_run_torque_counterexample :
  exists (res : Result.t) (others : list Result.t),
    result default_run = Return (res :: others) /\
    Result.name res = "Aileron" /\
    within (Result.torque_nm res) (17586 # 100000) (1 # 10000) = false /\
    within (Result.torque_kgcm res) (17936 # 10000) (1 # 1000) = false /\
    within (Result.torque_nm res) (176033088 # 1000000000) (1 # 1000000000) = true /\
    within (Result.torque_kgcm res) (1795044605 # 1000000000) (1 # 1000000000) = true.
Proof.
  eexists; eexists.
  split; [vm_compute; reflexivity |].
  repeat split; vm_compute; reflexivity.
Qed.

(** ** The whole transcript of a run *)

Lemma collect_cons {A : Type} (f : event -> option A) (ev : event)
    (evs : list event) :
  collect f (ev :: evs) = (collect f [ev] ++ collect f evs)%list.
Proof. apply (collect_app f [ev] evs). Qed.

Lemma questions_dialogue p d l : collect question_of (dialogue p d l) = [(p, d)].
Proof.
  unfold dialogue.
  destruct (String.eqb l ""); [reflexivity |].
  destruct (float_of_string l); reflexivity.
Qed.

Lemma warnings_dialogue p d l :
  collect warned_default (dialogue p d l) = if invalid l then [d] else [].
Proof.
  unfold dialogue, invalid.
  destruct (String.eqb l ""); [reflexivity |].
  destruct (float_of_string l); reflexivity.
Qed.

Lemma printed_torques_dialogue p d l : collect printed_torque (dialogue p d l) = [].
Proof.
  unfold dialogue.
  destruct (String.eqb l ""); [reflexivity |].
  destruct (float_of_string l); reflexivity.
Qed.

Lemma questions_report_lines results :
  collect question_of (flat_map report_lines results) = [].
Proof.
  induction results as [|res results IH]; [reflexivity |].
  cbn [flat_map]. rewrite collect_app, IH. reflexivity.
Qed.

Lemma warnings_report_lines results :
  collect warned_default (flat_map report_lines results) = [].
Proof.
  induction results as [|res results IH]; [reflexivity |].
  cbn [flat_map]. rewrite collect_app, IH. reflexivity.
Qed.

Lemma printed_torques_report_lines results :
  collect printed_torque (flat_map report_lines results)
  = flat_map (fun res => [(4%nat, Result.torque_nm res);
                          (2%nat, Result.torque_kgcm res)]) results.
Proof.
  induction results as [|res results IH]; [reflexivity |].
  cbn [flat_map]. rewrite collect_app, IH. reflexivity.
Qed.

Ltac split_collect :=
  repeat match goal with
         | |- context [collect ?f (?ev :: ?evs)] =>
             lazymatch evs with
             | [] => fail
             | _ => rewrite (collect_cons f ev evs)
             end
         end.

Create Rewrite HintDb transcript.
#[local] Hint Rewrite @collect_app questions_dialogue warnings_dialogue
  printed_torques_dialogue questions_report_lines warnings_report_lines
  printed_torques_report_lines app_nil_r : transcript.

Ltac transcript :=
  unfold questions, warnings, printed_torques;
  repeat progress (split_collect; autorewrite with transcript; cbn [app]).

Section Transcript.

Variable q : float.

Let body := fun item : string * Defaults.t => process_surface (fst item) (snd item) q.

Lemma for_each_surfaces_lines items :
  forall lines,
    (4 * List.length items <= List.length lines)%nat ->
    for_each items body lines
    = mkRun (Return (surface_results q items lines))
        (skipn (4 * List.length items) lines) (surfaces_dialogue items lines).
Proof.
  induction items as [|[name d] items IH]; intros lines H; [reflexivity |].
  destruct lines as [|l1 [|l2 [|l3 [|l4 lines]]]]; cbn [List.length] in H; try lia.
  cbn [for_each]. change (body (name, d)) with (process_surface name d q).
  erewrite bind_Return by apply process_surface_lines.
  rewrite bind_ret, IH by lia.
  cbv [after result unread emitted]. cbn [surface_results surfaces_dialogue].
  replace (4 * List.length ((name, d) :: items))%nat
    with (4 + 4 * List.length items)%nat by (cbn [List.length]; lia).
  cbn [skipn Nat.add app]. rewrite <- ?app_assoc. reflexivity.
Qed.

End Transcript.

Lemma questions_surfaces_dialogue items :
  forall lines,
    (4 * List.length items <= List.length lines)%nat ->
    questions (surfaces_dialogue items lines)
    = flat_map (fun item => surface_questions (fst item) (snd item)) items.
Proof.
  induction items as [|[name d] items IH]; intros lines H; [reflexivity |].
  destruct lines as [|l1 [|l2 [|l3 [|l4 lines]]]]; cbn [List.length] in H; try lia.
  cbn [surfaces_dialogue flat_map fst snd]. unfold surface_questions.
  specialize (IH lines ltac:(lia)). unfold questions in IH.
  transcript. rewrite IH. reflexivity.
Qed.

Lemma warnings_surfaces_dialogue items :
  forall lines,
    (4 * List.length items <= List.length lines)%nat ->
    warnings (surfaces_dialogue items lines)
    = expected_warnings
        (flat_map (fun item => surface_questions (fst item) (snd item)) items)
        lines.
Proof.
  induction items as [|[name d] items IH]; intros lines H; [reflexivity |].
  destruct lines as [|l1 [|l2 [|l3 [|l4 lines]]]]; cbn [List.length] in H; try lia.
  cbn [surfaces_dialogue flat_map fst snd]. unfold surface_questions.
  specialize (IH lines ltac:(lia)). unfold warnings in IH.
  transcript. rewrite IH. cbn [expected_warnings app].
  destruct (invalid l1), (invalid l2), (invalid l3), (invalid l4); reflexivity.
Qed.

Lemma printed_torques_surfaces_dialogue items :
  forall lines, printed_torques (surfaces_dialogue items lines) = [].
Proof.
  induction items as [|[name d] items IH]; intros lines; [reflexivity |].
  destruct lines as [|l1 [|l2 [|l3 [|l4 lines]]]]; try reflexivity.
  cbn [surfaces_dialogue]. specialize (IH lines). unfold printed_torques in IH.
  transcript. rewrite IH. reflexivity.
Qed.

Lemma run_complete l1 l2 lines sq :
  pow2 (entered l2 lit_18_0) = Return sq ->
  (12 <= List.length lines)%nat ->
  run_servo_torque_estimation (l1 :: l2 :: lines)
  = mkRun
      (Return (surface_results (dynamic_pressure_of l1 sq) surface_defaults lines))
      (skipn 12 lines)
      (flight_dialogue l1 l2
       ++ pressure_line (dynamic_pressure_of l1 sq)
       :: surfaces_dialogue surface_defaults lines
       ++ title_line
       :: flat_map report_lines
            (surface_results (dynamic_pressure_of l1 sq) surface_defaults lines)
       ++ [disclaimer_line])%list.
Proof.
  intros Hsq Hlen.
  apply (run_surfaces_return _ _ _ _ _ _ _ Hsq).
  apply (for_each_surfaces_lines (dynamic_pressure_of l1 sq) surface_defaults lines).
  exact Hlen.
Qed.

Lemma run_returns_inv stdin results :
  result (run_servo_torque_estimation stdin) = Return results ->
  exists l1 l2 lines sq,
    stdin = l1 :: l2 :: lines /\ (12 <= List.length lines)%nat /\
    pow2 (entered l2 lit_18_0) = Return sq.
Proof.
  destruct stdin as [|l1 [|l2 lines]].
  - rewrite run_eof_0. discriminate.
  - rewrite run_eof_1. discriminate.
  - destruct (pow2 (entered l2 lit_18_0)) as [sq|e] eqn:Hsq.
    + intros H. exists l1, l2, lines, sq. split; [reflexivity |]. split; [| exact Hsq].
      destruct (Nat.leb_spec 12 (List.length lines)) as [Hlen|Hlen]; [exact Hlen |].
      pose proof (surfaces_observed (dynamic_pressure_of l1 sq) lines) as [_ Hs].
      destruct (Nat.leb_spec 12 (List.length lines)) as [Hlen'|_]; [lia |].
      destruct Hs as [Hs _].
      destruct (surfaces (dynamic_pressure_of l1 sq) lines) as [[rs|e] rest evs] eqn:Hsurf;
        cbn [result] in Hs; [discriminate Hs |].
      rewrite (run_surfaces_raise _ _ _ _ _ _ _ Hsq Hsurf) in H. discriminate H.
    + rewrite (run_overflow _ _ _ _ Hsq). discriminate.
Qed.

(** ** Further properties of the script *)

Lemma lstrip_blank (cs : list ascii) :
  forallb is_space cs = true -> lstrip cs = [].
Proof.
  induction cs as [|c cs IH]; [reflexivity |].
  cbn [forallb lstrip]. intros H. apply andb_true_iff in H as [Hc Hcs].
  rewrite Hc. apply IH, Hcs.
Qed.

Lemma float_of_string_blank (line : string) :
  blank line = true -> float_of_string line = None.
Proof.
  unfold blank, float_of_string, strip. intros H.
  rewrite (lstrip_blank _ H). reflexivity.
Qed.

Lemma add_comm (x y : float) : add x y = add y x.
Proof.
  destruct x as [sx|sx| |sx mx ex], y as [sy|sy| |sy my ey];
    try reflexivity;
    try (destruct sx, sy; reflexivity).
  unfold add, SFadd. rewrite (Z.min_comm ey ex). f_equal. apply Z.add_comm.
Qed.

Lemma mul_nan_l (x : float) : mul S754_nan x = S754_nan.
Proof. destruct x; reflexivity. Qed.

Lemma mul_nan_r (x : float) : mul x S754_nan = S754_nan.
Proof. destruct x; reflexivity. Qed.

Lemma is_nan_eq (x : float) : is_nan x = true -> x = S754_nan.
Proof. destruct x; try discriminate; reflexivity. Qed.

Lemma pow2_neg (x : float) : pow2 (neg x) = pow2 x.
Proof.
  destruct x as [s|s| |s m e]; try reflexivity.
  - destruct s; reflexivity.
  - destruct s; reflexivity.
  - unfold pow2, neg, mul, SFopp, SFmul, is_finite.
    replace (xorb (negb s) (negb s)) with (xorb s s) by (destruct s; reflexivity).
    reflexivity.
Qed.

Lemma result_of_run_depends_on_square l1 l2 l2' lines :
  pow2 (entered l2 lit_18_0) = pow2 (entered l2' lit_18_0) ->
  result (run_servo_torque_estimation (l1 :: l2 :: lines))
  = result (run_servo_torque_estimation (l1 :: l2' :: lines)).
Proof.
  intros H.
  destruct (pow2 (entered l2' lit_18_0)) as [sq|e] eqn:Hsq'.
  - destruct (surfaces (dynamic_pressure_of l1 sq) lines) as [[rs|e] rest evs] eqn:Hsurf.
    + rewrite (run_surfaces_return _ _ _ _ _ _ _ H Hsurf),
        (run_surfaces_return _ _ _ _ _ _ _ Hsq' Hsurf). reflexivity.
    + rewrite (run_surfaces_raise _ _ _ _ _ _ _ H Hsurf),
        (run_surfaces_raise _ _ _ _ _ _ _ Hsq' Hsurf). reflexivity.
  - rewrite (run_overflow _ _ _ _ H), (run_overflow _ _ _ _ Hsq'). reflexivity.
Qed.

(** X1.  [process_surface] asks its four questions in the order hinge
    coefficient, span, root chord, tip chord, each with the default of
    the surface, under one header; it reads four lines and leaves the
    others unread, and it warns once for each answer that is not empty
    and not a number, naming the default of that question. *)
Theorem process_surface_dialogue (name : string) (defaults : Defaults.t)
    (q : float) (l1 l2 l3 l4 : string) (rest : list string) :
  unread (process_surface name defaults q (l1 :: l2 :: l3 :: l4 :: rest)) = rest /\
  sections (emitted (process_surface name defaults q (l1 :: l2 :: l3 :: l4 :: rest)))
  = [name] /\
  questions (emitted (process_surface name defaults q (l1 :: l2 :: l3 :: l4 :: rest)))
  = surface_questions name defaults /\
  warnings (emitted (process_surface name defaults q (l1 :: l2 :: l3 :: l4 :: rest)))
  = expected_warnings (surface_questions name defaults) [l1; l2; l3; l4].
Proof.
  rewrite process_surface_lines. cbn [unread emitted].
  split; [reflexivity |].
  split; [observe; reflexivity |].
  split; [transcript; reflexivity |].
  transcript. unfold surface_questions. cbn [expected_warnings].
  destruct (invalid l1), (invalid l2), (invalid l3), (invalid l4); reflexivity.
Qed.

(** X2.  With fewer than four lines left, [process_surface] raises
    [EOFError]: it has printed its header, asked one question more than
    there were lines, and read every line. *)
Theorem process_surface_end_of_input (name : string) (defaults : Defaults.t)
    (q : float) (stdin : list string) :
  (List.length stdin < 4)%nat ->
  result (process_surface name defaults q stdin) = Raise EOFError /\
  unread (process_surface name defaults q stdin) = [] /\
  sections (emitted (process_surface name defaults q stdin)) = [name] /\
  questions (emitted (process_surface name defaults q stdin))
  = firstn (S (List.length stdin)) (surface_questions name defaults).
Proof.
  intros H.
  destruct stdin as [|l1 [|l2 [|l3 [|l4 rest]]]]; cbn [List.length] in H; try lia.
  - rewrite process_surface_eof_0. repeat split.
  - rewrite process_surface_eof_1. cbn [result unread emitted].
    split; [reflexivity |]. split; [reflexivity |].
    split; [observe; reflexivity | transcript; reflexivity].
  - rewrite process_surface_eof_2. cbn [result unread emitted].
    split; [reflexivity |]. split; [reflexivity |].
    split; [observe; reflexivity | transcript; reflexivity].
  - rewrite process_surface_eof_3. cbn [result unread emitted].
    split; [reflexivity |]. split; [reflexivity |].
    split; [observe; reflexivity | transcript; reflexivity].
Qed.

Lemma process_surface_end_of_input_witness :
  (List.length ["0.2"; "abc"] < 4)%nat /\
  result (process_surface "Rudder"
            (Defaults.mk (neg (float_literal "0.10")) (float_literal "0.308")
               (float_literal "0.200") (float_literal "0.150") "")
            lit_18_0 ["0.2"; "abc"]) = Raise EOFError.
Proof.
  split; [cbn; lia |].
  apply (process_surface_end_of_input "Rudder"
           (Defaults.mk (neg (float_literal "0.10")) (float_literal "0.308")
              (float_literal "0.200") (float_literal "0.150") "")
           lit_18_0 ["0.2"; "abc"]).
  cbn; lia.
Defined.

Lemma questions_flight_dialogue l1 l2 :
  questions (flight_dialogue l1 l2)
  = [("Air density (rho) in kg/m^3", lit_1_225);
     ("Aircraft velocity (V) in m/s", lit_18_0)].
Proof. unfold flight_dialogue, intro_lines. transcript. reflexivity. Qed.

Lemma warnings_flight_dialogue l1 l2 :
  warnings (flight_dialogue l1 l2)
  = ((if invalid l1 then [lit_1_225] else [])
     ++ (if invalid l2 then [lit_18_0] else []))%list.
Proof. unfold flight_dialogue, intro_lines. transcript. reflexivity. Qed.

Lemma printed_torques_flight_dialogue l1 l2 :
  printed_torques (flight_dialogue l1 l2) = [].
Proof. unfold flight_dialogue, intro_lines. transcript. reflexivity. Qed.

(** X3.  A run that returns has asked the fourteen questions of
    [all_questions], in that order and whatever the answers, and has read
    fourteen lines: what follows them on the input is left unread. *)
Theorem run_reads_fourteen_lines (stdin : list string)
    (results : list Result.t) :
  result (run_servo_torque_estimation stdin) = Return results ->
  unread (run_servo_torque_estimation stdin) = skipn 14 stdin /\
  questions (emitted (run_servo_torque_estimation stdin)) = all_questions /\
  List.length results = 3%nat.
Proof.
  intros H.
  destruct (run_returns_inv stdin results H) as (l1 & l2 & lines & sq & -> & Hlen & Hsq).
  rewrite (run_complete l1 l2 lines sq Hsq Hlen) in *. cbn [result unread emitted] in *.
  split; [reflexivity |]. split.
  - pose proof (questions_surfaces_dialogue surface_defaults lines Hlen) as Hq.
    pose proof (questions_flight_dialogue l1 l2) as Hf.
    unfold questions in Hq, Hf. transcript. rewrite Hf, Hq. reflexivity.
  - assert (Hres : results = surface_results (dynamic_pressure_of l1 sq)
                              surface_defaults lines) by congruence.
    rewrite Hres, <- (length_map Result.name), names_surface_results by exact Hlen.
    reflexivity.
Qed.

Lemma run_reads_fourteen_lines_witness :
  unread (run_servo_torque_estimation (repeat "" 14 ++ ["left"; "over"])%list)
  = ["left"; "over"].
Proof.
  eapply (run_reads_fourteen_lines (repeat "" 14 ++ ["left"; "over"])%list).
  vm_compute. reflexivity.
Defined.

(** X4.  A run that returns has printed one warning for each of its
    fourteen answers that is not empty and not a number, in the order
    of the answers, and each warning names the default of the question
    that the answer was given to. *)
Theorem run_warns_for_each_invalid_answer (stdin : list string)
    (results : list Result.t) :
  result (run_servo_torque_estimation stdin) = Return results ->
  warnings (emitted (run_servo_torque_estimation stdin))
  = expected_warnings all_questions stdin.
Proof.
  intros H.
  destruct (run_returns_inv stdin results H) as (l1 & l2 & lines & sq & -> & Hlen & Hsq).
  rewrite (run_complete l1 l2 lines sq Hsq Hlen). cbn [emitted].
  pose proof (warnings_surfaces_dialogue surface_defaults lines Hlen) as Hw.
  pose proof (warnings_flight_dialogue l1 l2) as Hf.
  unfold warnings in Hw, Hf. transcript. rewrite Hf, Hw.
  unfold all_questions. cbn [expected_warnings].
  destruct (invalid l1), (invalid l2); reflexivity.
Qed.

Lemma run_warns_for_each_invalid_answer_witness :
  warnings
    (emitted (run_servo_torque_estimation
                ("1.2" :: "fast" :: "" :: "wide" :: repeat "" 10)))
  = [lit_18_0; float_literal "0.924"].
Proof.
  rewrite (run_warns_for_each_invalid_answer
             ("1.2" :: "fast" :: "" :: "wide" :: repeat "" 10)
             (surface_results (dynamic_pressure_of "1.2" (mul lit_18_0 lit_18_0))
                surface_defaults ("" :: "wide" :: repeat "" 10))).
  - vm_compute. reflexivity.
  - vm_compute. reflexivity.
Defined.

(** X5.  With fourteen lines and a velocity whose square does not
    overflow, the run returns one result for each surface, all three
    computed with the one dynamic pressure [0.5 * air_density *
    velocity ** 2] of the first two answers, and each from its own four
    answers and its own defaults; that dynamic pressure is the one the
    run prints. *)
Theorem run_results (l1 l2 a1 a2 a3 a4 e1 e2 e3 e4 r1 r2 r3 r4 : string)
    (rest : list string) (squared : float) :
  pow2 (entered l2 lit_18_0) = Return squared ->
  exists aileron elevator rudder : Defaults.t,
    surface_defaults
    = [("Aileron", aileron); ("Elevator", elevator); ("Rudder", rudder)] /\
    result (run_servo_torque_estimation
              (l1 :: l2 :: a1 :: a2 :: a3 :: a4 :: e1 :: e2 :: e3 :: e4
               :: r1 :: r2 :: r3 :: r4 :: rest))
    = Return
        [ surface_result "Aileron" aileron
            (mul (mul lit_0_5 (entered l1 lit_1_225)) squared) a1 a2 a3 a4;
          surface_result "Elevator" elevator
            (mul (mul lit_0_5 (entered l1 lit_1_225)) squared) e1 e2 e3 e4;
          surface_result "Rudder" rudder
            (mul (mul lit_0_5 (entered l1 lit_1_225)) squared) r1 r2 r3 r4 ] /\
    In (pressure_line (mul (mul lit_0_5 (entered l1 lit_1_225)) squared))
      (emitted (run_servo_torque_estimation
                  (l1 :: l2 :: a1 :: a2 :: a3 :: a4 :: e1 :: e2 :: e3 :: e4
                   :: r1 :: r2 :: r3 :: r4 :: rest))).
Proof.
  intros Hsq. eexists; eexists; eexists. split; [reflexivity |].
  rewrite (run_complete l1 l2 _ squared Hsq) by (cbn [List.length]; lia).
  split; [reflexivity |].
  cbn [emitted]. apply in_or_app. right. left. reflexivity.
Qed.

Lemma run_results_witness :
  exists results,
    result (run_servo_torque_estimation
              ("1.2" :: "20" :: "" :: "" :: "" :: "" :: "" :: "" :: "" :: ""
               :: "" :: "" :: "" :: "" :: [])) = Return results /\
    map Result.name results = fixed_order.
Proof.
  destruct (run_results "1.2" "20" "" "" "" "" "" "" "" "" "" "" "" "" []
              (mul (float_literal "20") (float_literal "20")))
    as (a & e & r & _ & H & _).
  - vm_compute. reflexivity.
  - eexists. split; [exact H | reflexivity].
Defined.

(** X6.  A run raises in two ways only.  [OverflowError]: the velocity
    is finite and its square is not; then the run stops right after the
    second answer, before the dynamic pressure is printed and before any
    surface is asked about.  [EOFError]: fewer than fourteen lines. *)
Theorem run_raises (stdin : list string) (e : exn) :
  result (run_servo_torque_estimation stdin) = Raise e ->
  (e = OverflowError /\
   exists l1 l2 rest,
     stdin = l1 :: l2 :: rest /\
     is_finite (entered l2 lit_18_0) = true /\
     is_infinite (mul (entered l2 lit_18_0) (entered l2 lit_18_0)) = true /\
     unread (run_servo_torque_estimation stdin) = rest /\
     emitted (run_servo_torque_estimation stdin) = flight_dialogue l1 l2) \/
  (e = EOFError /\ (List.length stdin < 14)%nat).
Proof.
  destruct stdin as [|l1 [|l2 lines]].
  - rewrite run_eof_0. cbn [result List.length]. intros H. right.
    split; [congruence | lia].
  - rewrite run_eof_1. cbn [result List.length]. intros H. right.
    split; [congruence | lia].
  - destruct (pow2 (entered l2 lit_18_0)) as [sq|e'] eqn:Hsq.
    + pose proof (surfaces_observed (dynamic_pressure_of l1 sq) lines) as [_ Hs].
      destruct (surfaces (dynamic_pressure_of l1 sq) lines)
        as [[rs|e'] rest evs] eqn:Hsurf; cbn [result] in Hs.
      * rewrite (run_surfaces_return _ _ _ _ _ _ _ Hsq Hsurf). discriminate.
      * rewrite (run_surfaces_raise _ _ _ _ _ _ _ Hsq Hsurf). cbn [result].
        intros H. right.
        destruct (Nat.leb_spec 12 (List.length lines)) as [Hlen|Hlen];
          destruct Hs as [Hs _]; [discriminate Hs |].
        split; [congruence | cbn [List.length]; lia].
    + rewrite (run_overflow _ _ _ _ Hsq). cbn [result unread emitted].
      intros H. left. split; [apply pow2_raises in Hsq; congruence |].
      exists l1, l2, lines. split; [reflexivity |].
      unfold pow2 in Hsq.
      destruct (is_finite (entered l2 lit_18_0)); [| discriminate Hsq].
      destruct (is_infinite (mul (entered l2 lit_18_0) (entered l2 lit_18_0)));
        [| discriminate Hsq].
      repeat split.
Qed.

Lemma run_raises_witness :
  result (run_servo_torque_estimation ["1.2"; "1e200"; "0.1"]) = Raise OverflowError /\
  unread (run_servo_torque_estimation ["1.2"; "1e200"; "0.1"]) = ["0.1"].
Proof.
  assert (H : result (run_servo_torque_estimation ["1.2"; "1e200"; "0.1"])
              = Raise OverflowError) by (vm_compute; reflexivity).
  split; [exact H |].
  destruct (run_raises ["1.2"; "1e200"; "0.1"] OverflowError H)
    as [(_ & l1 & l2 & rest & Hin & _ & _ & Hun & _) | (Habs & _)].
  - rewrite Hun. injection Hin as _ _ <-. reflexivity.
  - discriminate Habs.
Defined.

(** X7.  The report of a run that returns prints, for each result in
    turn, its torque in N.m with four decimals and then its torque in
    kg-cm with two, and no other torque. *)
Theorem run_prints_the_torques (stdin : list string) (results : list Result.t) :
  result (run_servo_torque_estimation stdin) = Return results ->
  printed_torques (emitted (run_servo_torque_estimation stdin))
  = flat_map (fun res => [(4%nat, Result.torque_nm res);
                          (2%nat, Result.torque_kgcm res)]) results.
Proof.
  intros H.
  destruct (run_returns_inv stdin results H) as (l1 & l2 & lines & sq & -> & Hlen & Hsq).
  rewrite (run_complete l1 l2 lines sq Hsq Hlen) in *. cbn [result emitted] in *.
  assert (Hres : results = surface_results (dynamic_pressure_of l1 sq)
                            surface_defaults lines) by congruence.
  rewrite <- Hres. clear H Hres.
  pose proof (printed_torques_surfaces_dialogue surface_defaults lines) as Hp.
  pose proof (printed_torques_flight_dialogue l1 l2) as Hf.
  unfold printed_torques in Hp, Hf. transcript. rewrite Hf, Hp.
  cbn [app]. reflexivity.
Qed.

Lemma run_prints_the_torques_witness :
  List.length (printed_torques (emitted default_run)) = 6%nat.
Proof.
  unfold default_run.
  rewrite (run_prints_the_torques (repeat "" 14)
             (surface_results (dynamic_pressure_of "" (mul lit_18_0 lit_18_0))
                surface_defaults (repeat "" 12))).
  - reflexivity.
  - vm_compute. reflexivity.
Defined.

(** X8.  A NaN among the arguments of [calculate_hinge_torque] makes
    both torques NaN. *)
Theorem calculate_hinge_torque_nan (q A c h : float) :
  is_nan q || is_nan A || is_nan c || is_nan h = true ->
  calculate_hinge_torque q A c h = (S754_nan, S754_nan).
Proof.
  intros H. unfold calculate_hinge_torque.
  repeat (apply orb_true_iff in H as [H|H]);
    apply is_nan_eq in H; subst;
    cbn [abs SFabs]; rewrite ?mul_nan_l, ?mul_nan_r; reflexivity.
Qed.

Lemma calculate_hinge_torque_nan_witness :
  is_nan lit_18_0 || is_nan lit_2_0 || is_nan lit_0_5
  || is_nan (entered "nan" (neg (float_literal "0.15"))) = true /\
  calculate_hinge_torque lit_18_0 lit_2_0 lit_0_5
    (entered "nan" (neg (float_literal "0.15"))) = (S754_nan, S754_nan).
Proof.
  split; [reflexivity |].
  apply calculate_hinge_torque_nan. reflexivity.
Defined.

(** X9.  An answer made of blanks only is not the empty answer:
    [get_user_input] returns the default for it too, but after the
    warning. *)
Theorem get_user_input_blank_line (prompt_text : string) (default_value : float)
    (line : string) (rest : list string) :
  line <> "" -> blank line = true ->
  get_user_input prompt_text default_value (line :: rest)
  = mkRun (Return default_value) rest
      [prompt_of prompt_text default_value; warning_of default_value].
Proof.
  intros Hne Hb. rewrite get_user_input_line. unfold entered, dialogue.
  destruct (String.eqb_spec line "") as [He|_]; [contradiction |].
  rewrite (float_of_string_blank line Hb). reflexivity.
Qed.

Lemma get_user_input_blank_line_witness :
  "   " <> "" /\ blank "   " = true /\
  get_user_input "Air density (rho) in kg/m^3" lit_1_225 ["   "; "18"]
  = mkRun (Return lit_1_225) ["18"]
      [prompt_of "Air density (rho) in kg/m^3" lit_1_225; warning_of lit_1_225].
Proof.
  split; [discriminate |]. split; [reflexivity |].
  apply get_user_input_blank_line; [discriminate | reflexivity].
Defined.

(** X10.  Root chord and tip chord can be exchanged: the area and the
    mean chord are the same. *)
Theorem chords_can_be_exchanged (root_chord tip_chord span : float) :
  calculate_trapezoid_area root_chord tip_chord span
  = calculate_trapezoid_area tip_chord root_chord span /\
  calculate_mean_aerodynamic_chord root_chord tip_chord
  = calculate_mean_aerodynamic_chord tip_chord root_chord.
Proof.
  unfold calculate_trapezoid_area, calculate_mean_aerodynamic_chord.
  rewrite (add_comm root_chord tip_chord). split; reflexivity.
Qed.

(** X11.  The velocity enters a run by its square only: two runs whose
    velocities are opposite numbers, on the same other lines, end with
    the same results or the same exception. *)
Theorem run_ignores_the_sign_of_the_velocity (l1 l2 l2' : string)
    (lines : list string) :
  entered l2' lit_18_0 = neg (entered l2 lit_18_0) ->
  result (run_servo_torque_estimation (l1 :: l2' :: lines))
  = result (run_servo_torque_estimation (l1 :: l2 :: lines)).
Proof.
  intros H. apply result_of_run_depends_on_square.
  rewrite H. apply pow2_neg.
Qed.

Lemma run_ignores_the_sign_of_the_velocity_witness :
  entered "-18" lit_18_0 = neg (entered "18" lit_18_0) /\
  result (run_servo_torque_estimation ("" :: "-18" :: repeat "" 12))
  = result (run_servo_torque_estimation ("" :: "18" :: repeat "" 12)).
Proof.
  split; [vm_compute; reflexivity |].
  apply run_ignores_the_sign_of_the_velocity. vm_compute. reflexivity.
Defined.
